(** * JSON::Dataset: the dataset value object and its [read] operation

    A shallow embedding of [JSON::Dataset] (constructor, accessors and
    [read]) together with the part of Qt's JSON value API that [read]
    goes through: [QJsonObject::isEmpty], [contains] and [value],
    [QJsonValue::toBool], [toDouble], [toString] and [toInt], and
    [QString::isEmpty].

    A member function that mutates the object is a function from the
    object before the call to the returned value and the object after
    the call; a [const] member function is a function of the object. *)

From Stdlib Require Import ZArith Bool.
From Stdlib Require Import Floats.SpecFloat.
From stdpp Require Import gmap strings.

Local Open Scope string_scope.
Local Open Scope Z_scope.

(** ** Qt value types *)

Module Qt.

(** [QString]: a sequence of characters. [isEmpty] holds exactly when
    the string has no characters; there is no trimming. *)
Abbreviation QString := string.

Definition QString_isEmpty (s : QString) : bool :=
  match s with
  | EmptyString => true
  | String _ _ => false
  end.

(** A C++ [double] is the IEEE-754 binary64 datum it denotes. *)
Abbreviation double := spec_float.

Definition prec64 : Z := 53.
Definition emax64 : Z := 1024.

(** Conversion of an integer constant to [double], as in the member
    initialiser [m_max(0)] or in a JSON number written [2048]. *)
Definition double_of_Z (z : Z) : double :=
  binary_normalize prec64 emax64 z 0 false.

(** [int] is 32 bits wide. *)
Definition INT_MIN : Z := - 2 ^ 31.
Definition INT_MAX : Z := 2 ^ 31 - 1.

(** The integer a [double] denotes, when it is a whole number. *)
Definition double_whole (d : double) : option Z :=
  match d with
  | S754_zero _ => Some 0
  | S754_finite s m e =>
      let sign (a : Z) := if s then - a else a in
      if 0 <=? e then Some (sign (Z.pos m * 2 ^ e))
      else if Z.pos m mod 2 ^ (- e) =? 0
           then Some (sign (Z.pos m / 2 ^ (- e)))
           else None
  | S754_infinity _ | S754_nan => None
  end.

(** [qMax(a, b)] is [(a < b) ? b : a]. *)
Definition qMax (a b : Z) : Z := if a <? b then b else a.

(** [QJsonValue], with the seven kinds of [QJsonValue::Type].  A
    [QJsonObject] is a map from keys to values, kept sorted by key. *)
#[warnings="-register-all"]
Inductive QJsonValue : Type :=
| Null
| Bool (b : bool)
| Double (d : double)
| String_ (s : QString)
| Array (l : list QJsonValue)
| Object (o : gmap string QJsonValue)
| Undefined.

Abbreviation QJsonObject := (gmap string QJsonValue).

(** [toBool()]: the boolean of a [Bool] value, [false] for any other
    kind. *)
Definition toBool (v : QJsonValue) : bool :=
  match v with
  | Bool b => b
  | _ => false
  end.

(** [toDouble()]: the number of a [Double] value, [0] for any other
    kind. *)
Definition toDouble (v : QJsonValue) : double :=
  match v with
  | Double d => d
  | _ => double_of_Z 0
  end.

(** [toString()]: the text of a [String] value, the null string for any
    other kind. *)
Definition toString (v : QJsonValue) : QString :=
  match v with
  | String_ s => s
  | _ => ""
  end.

(** [toInt()]: the integer of a [Double] value that is a whole number
    an [int] can hold, [0] otherwise. *)
Definition toInt (v : QJsonValue) : Z :=
  match v with
  | Double d =>
      match double_whole d with
      | Some z => if (INT_MIN <=? z) && (z <=? INT_MAX) then z else 0
      | None => 0
      end
  | _ => 0
  end.

Definition QJsonObject_isEmpty (o : QJsonObject) : bool :=
  Nat.eqb (size o) 0.

Definition QJsonObject_contains (o : QJsonObject) (key : QString) : bool :=
  match o !! key with
  | Some _ => true
  | None => false
  end.

(** [value(key)]: the value stored under [key], [Undefined] when the
    key is absent. *)
Definition QJsonObject_value (o : QJsonObject) (key : QString)
  : QJsonValue :=
  match o !! key with
  | Some v => v
  | None => Undefined
  end.

End Qt.

(** ** FrameInfo.h: lookup of a key, or of a key and its alias *)

Module JFI.
Import Qt.

(** Modelled from the spec: [JFI_Value] is declared in FrameInfo.h,
    which is not among the sources.  With one key, it is the value
    stored under the key, and a value that coerces to the zero of every
    type when the key is absent. *)
Definition JFI_Value (object : QJsonObject) (key : QString) : QJsonValue :=
  if QJsonObject_contains object key then QJsonObject_value object key
  else Null.

(** Modelled from the spec: [JFI_Value] with a key and an alias, declared
    in FrameInfo.h, which is not among the sources.  The lookup tries
    the primary key first, falls back to the alias if the primary is
    absent, and yields a value that coerces to the zero of every type if
    neither is present. *)
Definition JFI_Value_alias (object : QJsonObject) (key alias : QString)
  : QJsonValue :=
  if QJsonObject_contains object key then QJsonObject_value object key
  else if QJsonObject_contains object alias
       then QJsonObject_value object alias
       else Null.

End JFI.

(** ** JSON::Dataset *)

Module JSON.
Import Qt JFI.

Record Dataset : Type := {
  m_fft : bool;
  m_led : bool;
  m_log : bool;
  m_graph : bool;
  m_title : QString;
  m_value : QString;
  m_units : QString;
  m_widget : QString;
  m_index : Z;
  m_max : double;
  m_min : double;
  m_alarm : double;
  m_fftSamples : Z;
  m_jsonData : QJsonObject
}.

(** [Dataset::Dataset()]: the member initialisers, and the default
    constructed (empty) [m_jsonData]. *)
Definition Dataset_Dataset : Dataset := {|
  m_fft := false;
  m_led := false;
  m_log := false;
  m_graph := false;
  m_title := "";
  m_value := "";
  m_units := "";
  m_widget := "";
  m_index := 0;
  m_max := double_of_Z 0;
  m_min := double_of_Z 0;
  m_alarm := double_of_Z 0;
  m_fftSamples := 1024;
  m_jsonData := ∅
|}.

(** *** Accessors *)

Definition fft (self : Dataset) : bool := m_fft self.
Definition led (self : Dataset) : bool := m_led self.
Definition log (self : Dataset) : bool := m_log self.
Definition graph (self : Dataset) : bool := m_graph self.
Definition min (self : Dataset) : double := m_min self.
Definition max (self : Dataset) : double := m_max self.
Definition alarm (self : Dataset) : double := m_alarm self.
Definition title (self : Dataset) : QString := m_title self.
Definition value (self : Dataset) : QString := m_value self.
Definition units (self : Dataset) : QString := m_units self.
Definition widget (self : Dataset) : QString := m_widget self.
Definition fftSamples (self : Dataset) : Z := qMax 1 (m_fftSamples self).
Definition jsonData (self : Dataset) : QJsonObject := m_jsonData self.

(** *** Assignment to one member *)

Definition set_m_fft (x : bool) (self : Dataset) : Dataset :=
  Build_Dataset x (m_led self) (m_log self) (m_graph self) (m_title self)
    (m_value self) (m_units self) (m_widget self) (m_index self) (m_max self)
    (m_min self) (m_alarm self) (m_fftSamples self) (m_jsonData self).

Definition set_m_led (x : bool) (self : Dataset) : Dataset :=
  Build_Dataset (m_fft self) x (m_log self) (m_graph self) (m_title self)
    (m_value self) (m_units self) (m_widget self) (m_index self) (m_max self)
    (m_min self) (m_alarm self) (m_fftSamples self) (m_jsonData self).

Definition set_m_log (x : bool) (self : Dataset) : Dataset :=
  Build_Dataset (m_fft self) (m_led self) x (m_graph self) (m_title self)
    (m_value self) (m_units self) (m_widget self) (m_index self) (m_max self)
    (m_min self) (m_alarm self) (m_fftSamples self) (m_jsonData self).

Definition set_m_graph (x : bool) (self : Dataset) : Dataset :=
  Build_Dataset (m_fft self) (m_led self) (m_log self) x (m_title self)
    (m_value self) (m_units self) (m_widget self) (m_index self) (m_max self)
    (m_min self) (m_alarm self) (m_fftSamples self) (m_jsonData self).

Definition set_m_title (x : QString) (self : Dataset) : Dataset :=
  Build_Dataset (m_fft self) (m_led self) (m_log self) (m_graph self) x
    (m_value self) (m_units self) (m_widget self) (m_index self) (m_max self)
    (m_min self) (m_alarm self) (m_fftSamples self) (m_jsonData self).

Definition set_m_value (x : QString) (self : Dataset) : Dataset :=
  Build_Dataset (m_fft self) (m_led self) (m_log self) (m_graph self) (m_title self)
    x (m_units self) (m_widget self) (m_index self) (m_max self)
    (m_min self) (m_alarm self) (m_fftSamples self) (m_jsonData self).

Definition set_m_units (x : QString) (self : Dataset) : Dataset :=
  Build_Dataset (m_fft self) (m_led self) (m_log self) (m_graph self) (m_title self)
    (m_value self) x (m_widget self) (m_index self) (m_max self)
    (m_min self) (m_alarm self) (m_fftSamples self) (m_jsonData self).

Definition set_m_widget (x : QString) (self : Dataset) : Dataset :=
  Build_Dataset (m_fft self) (m_led self) (m_log self) (m_graph self) (m_title self)
    (m_value self) (m_units self) x (m_index self) (m_max self)
    (m_min self) (m_alarm self) (m_fftSamples self) (m_jsonData self).

Definition set_m_max (x : double) (self : Dataset) : Dataset :=
  Build_Dataset (m_fft self) (m_led self) (m_log self) (m_graph self) (m_title self)
    (m_value self) (m_units self) (m_widget self) (m_index self) x
    (m_min self) (m_alarm self) (m_fftSamples self) (m_jsonData self).

Definition set_m_min (x : double) (self : Dataset) : Dataset :=
  Build_Dataset (m_fft self) (m_led self) (m_log self) (m_graph self) (m_title self)
    (m_value self) (m_units self) (m_widget self) (m_index self) (m_max self)
    x (m_alarm self) (m_fftSamples self) (m_jsonData self).

Definition set_m_alarm (x : double) (self : Dataset) : Dataset :=
  Build_Dataset (m_fft self) (m_led self) (m_log self) (m_graph self) (m_title self)
    (m_value self) (m_units self) (m_widget self) (m_index self) (m_max self)
    (m_min self) x (m_fftSamples self) (m_jsonData self).

Definition set_m_fftSamples (x : Z) (self : Dataset) : Dataset :=
  Build_Dataset (m_fft self) (m_led self) (m_log self) (m_graph self) (m_title self)
    (m_value self) (m_units self) (m_widget self) (m_index self) (m_max self)
    (m_min self) (m_alarm self) x (m_jsonData self).

Definition set_m_jsonData (x : QJsonObject) (self : Dataset) : Dataset :=
  Build_Dataset (m_fft self) (m_led self) (m_log self) (m_graph self) (m_title self)
    (m_value self) (m_units self) (m_widget self) (m_index self) (m_max self)
    (m_min self) (m_alarm self) (m_fftSamples self) x.

(** *** [Dataset::read] *)

Definition read (object : QJsonObject) (self : Dataset) : bool * Dataset :=
  if negb (QJsonObject_isEmpty object) then
    let fft := toBool (JFI_Value object "fft") in
    let led := toBool (JFI_Value object "led") in
    let log := toBool (JFI_Value object "log") in
    let min := toDouble (JFI_Value object "min") in
    let max := toDouble (JFI_Value object "max") in
    let alarm := toDouble (JFI_Value object "alarm") in
    let graph := toBool (JFI_Value_alias object "graph" "g") in
    let title := toString (JFI_Value_alias object "title" "t") in
    let value := toString (JFI_Value_alias object "value" "v") in
    let units := toString (JFI_Value_alias object "units" "u") in
    let widget := toString (JFI_Value_alias object "widget" "w") in
    let fftSamples := toInt (JFI_Value object "fftSamples") in
    if negb (QString_isEmpty value) && negb (QString_isEmpty title) then
      let self := set_m_min min self in
      let self := set_m_max max self in
      let self := set_m_fft fft self in
      let self := set_m_led led self in
      let self := set_m_log log self in
      let self := set_m_graph graph self in
      let self := set_m_title title self in
      let self := set_m_units units self in
      let self := set_m_value value self in
      let self := set_m_alarm alarm self in
      let self := set_m_widget widget self in
      let self := set_m_jsonData object self in
      let self := set_m_fftSamples fftSamples self in
      (true, self)
    else (false, self)
  else (false, self).

End JSON.

(** ** The input schema of the specification, and what [read] extracts *)

Module Schema.
Import Qt JFI.

Inductive field_type : Type := TBool | TNumber | TString | TInteger.

(** A scalar of one of the four types of the schema. *)
Inductive scalar : Type :=
| SBool (b : bool)
| SNumber (d : double)
| SString (s : QString)
| SInteger (z : Z).

(** One row of the input object schema: primary key, optional alias and
    type; the default is the one of the type. *)
Record field : Type := {
  primary : QString;
  alias : option QString;
  type : field_type
}.

Definition schema : list field := [
  {| primary := "fft"; alias := None; type := TBool |};
  {| primary := "led"; alias := None; type := TBool |};
  {| primary := "log"; alias := None; type := TBool |};
  {| primary := "min"; alias := None; type := TNumber |};
  {| primary := "max"; alias := None; type := TNumber |};
  {| primary := "alarm"; alias := None; type := TNumber |};
  {| primary := "graph"; alias := Some "g"; type := TBool |};
  {| primary := "title"; alias := Some "t"; type := TString |};
  {| primary := "value"; alias := Some "v"; type := TString |};
  {| primary := "units"; alias := Some "u"; type := TString |};
  {| primary := "widget"; alias := Some "w"; type := TString |};
  {| primary := "fftSamples"; alias := None; type := TInteger |}
].

Definition default (t : field_type) : scalar :=
  match t with
  | TBool => SBool false
  | TNumber => SNumber (double_of_Z 0)
  | TString => SString ""
  | TInteger => SInteger 0
  end.

Definition coerce (t : field_type) (v : QJsonValue) : scalar :=
  match t with
  | TBool => SBool (toBool v)
  | TNumber => SNumber (toDouble v)
  | TString => SString (toString v)
  | TInteger => SInteger (toInt v)
  end.

(** Primary key first, the alias only when the primary key is absent. *)
Definition lookup_with_fallback (object : QJsonObject) (f : field)
  : option QJsonValue :=
  match object !! primary f with
  | Some v => Some v
  | None =>
      match alias f with
      | Some a => object !! a
      | None => None
      end
  end.

(** The coerced extracted value, or the default of the type when the
    key and its alias are absent. *)
Definition extracted (object : QJsonObject) (f : field) : scalar :=
  match lookup_with_fallback object f with
  | Some v => coerce (type f) v
  | None => default (type f)
  end.

(** The member of a [Dataset] that holds the field of a primary key. *)
Definition stored (d : JSON.Dataset) (key : QString) : option scalar :=
  if String.eqb key "fft" then Some (SBool (JSON.m_fft d))
  else if String.eqb key "led" then Some (SBool (JSON.m_led d))
  else if String.eqb key "log" then Some (SBool (JSON.m_log d))
  else if String.eqb key "min" then Some (SNumber (JSON.m_min d))
  else if String.eqb key "max" then Some (SNumber (JSON.m_max d))
  else if String.eqb key "alarm" then Some (SNumber (JSON.m_alarm d))
  else if String.eqb key "graph" then Some (SBool (JSON.m_graph d))
  else if String.eqb key "title" then Some (SString (JSON.m_title d))
  else if String.eqb key "value" then Some (SString (JSON.m_value d))
  else if String.eqb key "units" then Some (SString (JSON.m_units d))
  else if String.eqb key "widget" then Some (SString (JSON.m_widget d))
  else if String.eqb key "fftSamples"
       then Some (SInteger (JSON.m_fftSamples d))
  else None.

(** The title and the value strings that [read] extracts and tests. *)
Definition extracted_title (object : QJsonObject) : QString :=
  toString (JFI_Value_alias object "title" "t").

Definition extracted_value (object : QJsonObject) : QString :=
  toString (JFI_Value_alias object "value" "v").

(** Two datasets agree on every member that belongs to the data model:
    the four flags, the four strings, the three numbers, the sample
    count and the raw source. *)
Definition same_data (d1 d2 : JSON.Dataset) : Prop :=
  JSON.m_fft d1 = JSON.m_fft d2 /\
  JSON.m_led d1 = JSON.m_led d2 /\
  JSON.m_log d1 = JSON.m_log d2 /\
  JSON.m_graph d1 = JSON.m_graph d2 /\
  JSON.m_title d1 = JSON.m_title d2 /\
  JSON.m_value d1 = JSON.m_value d2 /\
  JSON.m_units d1 = JSON.m_units d2 /\
  JSON.m_widget d1 = JSON.m_widget d2 /\
  JSON.m_max d1 = JSON.m_max d2 /\
  JSON.m_min d1 = JSON.m_min d2 /\
  JSON.m_alarm d1 = JSON.m_alarm d2 /\
  JSON.m_fftSamples d1 = JSON.m_fftSamples d2 /\
  JSON.m_jsonData d1 = JSON.m_jsonData d2.

(** The dataset [read] leaves when it succeeds: every member but
    [m_index] is taken from the object. *)
Definition assigned (object : QJsonObject) (self : JSON.Dataset)
  : JSON.Dataset := {|
  JSON.m_fft := toBool (JFI_Value object "fft");
  JSON.m_led := toBool (JFI_Value object "led");
  JSON.m_log := toBool (JFI_Value object "log");
  JSON.m_graph := toBool (JFI_Value_alias object "graph" "g");
  JSON.m_title := extracted_title object;
  JSON.m_value := extracted_value object;
  JSON.m_units := toString (JFI_Value_alias object "units" "u");
  JSON.m_widget := toString (JFI_Value_alias object "widget" "w");
  JSON.m_index := JSON.m_index self;
  JSON.m_max := toDouble (JFI_Value object "max");
  JSON.m_min := toDouble (JFI_Value object "min");
  JSON.m_alarm := toDouble (JFI_Value object "alarm");
  JSON.m_fftSamples := toInt (JFI_Value object "fftSamples");
  JSON.m_jsonData := object
|}.

End Schema.

(** ** Sample objects *)

Module Samples.
Import Qt.

(** [{"t": "Speed", "v": "10", "g": true}] *)
Definition speed : QJsonObject :=
  {[ "t" := String_ "Speed"; "v" := String_ "10"; "g" := Bool true ]}.

(** [{"title": " ", "value": " "}] *)
Definition blank : QJsonObject :=
  {[ "title" := String_ " "; "value" := String_ " " ]}.

(** [{"title": "RPM", "value": "%1", "units": "rpm", "fft": true}] *)
Definition rpm : QJsonObject :=
  {[ "title" := String_ "RPM"; "value" := String_ "%1";
     "units" := String_ "rpm"; "fft" := Bool true ]}.

End Samples.

(** ** Successive reads *)

Module Runs.
Import Qt Schema.

(** The test of the inner conditional of [read]. *)
Definition accepted (object : QJsonObject) : bool :=
  negb (QString_isEmpty (extracted_value object))
  && negb (QString_isEmpty (extracted_title object)).

(** The dataset after [read] has been called with each object of a
    sequence, the first object first. *)
Definition read_all (objects : list QJsonObject) (self : JSON.Dataset)
  : JSON.Dataset :=
  fold_left (fun d o => snd (JSON.read o d)) objects self.

(** The last object of a sequence that passes the test. *)
Definition last_accepted (objects : list QJsonObject)
  : option QJsonObject :=
  List.find accepted (List.rev objects).

End Runs.

(** ** UI::DeclarativeWidget *)

Module UI.
Import Qt.

(** The address of a widget, an event or a painter; a pointer is an
    optional address, [None] being the null pointer. *)
Abbreviation ptr := positive.

Inductive QRect : Type :=
| QRect_default
| QRect_of (x y w h : Z).

(** A pixmap is known by where it comes from: the default constructed
    one, or what [grab()] returned for a widget. *)
Inductive QPixmap : Type :=
| QPixmap_null
| QPixmap_grab (w : ptr).

(** The protected event handlers of [QWidget] that [EXEC_EVENT] calls. *)
Inductive member : Type :=
| QWidget_keyPressEvent
| QWidget_keyReleaseEvent
| QWidget_inputMethodEvent
| QWidget_focusInEvent
| QWidget_focusOutEvent
| QWidget_mousePressEvent
| QWidget_mouseMoveEvent
| QWidget_mouseReleaseEvent
| QWidget_mouseDoubleClickEvent
| QWidget_wheelEvent
| QWidget_dragEnterEvent
| QWidget_dragMoveEvent
| QWidget_dragLeaveEvent
| QWidget_dropEvent.

(** The conversion of a [qreal] argument to an [int] parameter: the
    fractional part is discarded (truncation toward zero); when the
    truncated value does not fit an [int], and for an infinity or a
    NaN, the language leaves the conversion undefined ([None]). *)
Definition double_truncate (d : double) : option Z :=
  match d with
  | S754_zero _ => Some 0
  | S754_finite s m e =>
      let a := if 0 <=? e then Z.pos m * 2 ^ e
               else Z.pos m / 2 ^ (- e) in
      Some (if s then - a else a)
  | S754_infinity _ | S754_nan => None
  end.

Definition int_of_double (d : double) : option Z :=
  match double_truncate d with
  | Some z => if (INT_MIN <=? z) && (z <=? INT_MAX) then Some z else None
  | None => None
  end.

(** What the item does to the objects around it, in the order in which
    it does it.  These calls go out of the item; they are taken not to
    call back into it.  [SetFixedSize] carries the two [int] arguments
    that [QWidget::setFixedSize(int, int)] receives. *)
Inductive effect : Type :=
| Grab (w : ptr)
| ItemUpdate (rect : QRect)
| DrawPixmap (painter : ptr) (x y : Z) (pixmap : QPixmap)
| Forward (f : member) (w : ptr) (event : option ptr)
| SetFixedSize (w : ptr) (width height : option Z)
| Delete (w : ptr)
| Emit_widgetChanged.

(** DeclarativeWidget.h is not among the sources.  [m_widget] is a
    guarded pointer to a widget (the code calls [isNull()] and [data()]
    on it) and [m_pixmap] a pixmap; [width] and [height] are the
    properties of the painted item, of type [qreal]. *)
Record DeclarativeWidget : Type := {
  m_widget : option ptr;
  m_pixmap : QPixmap;
  width : double;
  height : double
}.

(** A member function: the effects of the call and the item after it. *)
Definition action : Type :=
  DeclarativeWidget -> list effect * DeclarativeWidget.

Definition skip : action := fun self => ([], self).

Definition perform (e : effect) : action := fun self => ([e], self).

Definition seq (a b : action) : action := fun self =>
  let '(l1, self1) := a self in
  let '(l2, self2) := b self1 in
  ((l1 ++ l2)%list, self2).

Local Notation "a >> b" := (seq a b) (at level 62, right associativity).

Definition set_m_widget (w : option ptr) : action := fun self =>
  ([], {| m_widget := w; m_pixmap := m_pixmap self;
          width := width self; height := height self |}).

Definition set_m_pixmap (p : QPixmap) : action := fun self =>
  ([], {| m_widget := m_widget self; m_pixmap := p;
          width := width self; height := height self |}).

Definition set_width (x : double) : action := fun self =>
  ([], {| m_widget := m_widget self; m_pixmap := m_pixmap self;
          width := x; height := height self |}).

Definition set_height (y : double) : action := fun self =>
  ([], {| m_widget := m_widget self; m_pixmap := m_pixmap self;
          width := width self; height := y |}).

(** The item after [DeclarativeWidget::DeclarativeWidget]: no widget,
    the null pixmap, no extent. *)
Definition DeclarativeWidget_DeclarativeWidget : DeclarativeWidget := {|
  m_widget := None;
  m_pixmap := QPixmap_null;
  width := double_of_Z 0;
  height := double_of_Z 0
|}.

Definition widget (self : DeclarativeWidget) : option ptr := m_widget self.

(** [update(rect)]; called without argument, [rect] is the default
    rectangle. *)
Definition update (rect : QRect) : action := fun self =>
  match widget self with
  | Some w =>
      (perform (Grab w) >> set_m_pixmap (QPixmap_grab w) >>
       perform (ItemUpdate rect)) self
  | None => skip self
  end.

Definition paint (painter : option ptr) : action := fun self =>
  match painter with
  | Some p => perform (DrawPixmap p 0 0 (m_pixmap self)) self
  | None => skip self
  end.

(** The macro [EXEC_EVENT(m_widget, function, event)]. *)
Definition EXEC_EVENT (function : member) (event : option ptr) : action :=
  fun self =>
  match m_widget self with
  | Some w => (perform (Forward function w event) >> update QRect_default) self
  | None => skip self
  end.

Definition keyPressEvent (event : option ptr) : action :=
  EXEC_EVENT QWidget_keyPressEvent event.

Definition keyReleaseEvent (event : option ptr) : action :=
  EXEC_EVENT QWidget_keyReleaseEvent event.

Definition inputMethodEvent (event : option ptr) : action :=
  EXEC_EVENT QWidget_inputMethodEvent event.

Definition focusInEvent (event : option ptr) : action :=
  EXEC_EVENT QWidget_focusInEvent event.

Definition focusOutEvent (event : option ptr) : action :=
  EXEC_EVENT QWidget_focusOutEvent event.

Definition mousePressEvent (event : option ptr) : action :=
  EXEC_EVENT QWidget_mousePressEvent event.

Definition mouseMoveEvent (event : option ptr) : action :=
  EXEC_EVENT QWidget_mouseMoveEvent event.

Definition mouseReleaseEvent (event : option ptr) : action :=
  EXEC_EVENT QWidget_mouseReleaseEvent event.

Definition mouseDoubleClickEvent (event : option ptr) : action :=
  EXEC_EVENT QWidget_mouseDoubleClickEvent event.

Definition wheelEvent (event : option ptr) : action :=
  EXEC_EVENT QWidget_wheelEvent event.

Definition dragEnterEvent (event : option ptr) : action :=
  EXEC_EVENT QWidget_dragEnterEvent event.

Definition dragMoveEvent (event : option ptr) : action :=
  EXEC_EVENT QWidget_dragMoveEvent event.

Definition dragLeaveEvent (event : option ptr) : action :=
  EXEC_EVENT QWidget_dragLeaveEvent event.

Definition dropEvent (event : option ptr) : action :=
  EXEC_EVENT QWidget_dropEvent event.

Definition resizeWidget : action := fun self =>
  match widget self with
  | Some w =>
      if SFltb (double_of_Z 0) (width self)
         && SFltb (double_of_Z 0) (height self)
      then (perform (SetFixedSize w (int_of_double (width self))
                      (int_of_double (height self))) >>
            update QRect_default) self
      else skip self
  | None => skip self
  end.

(** [Q_EMIT widgetChanged()]: the constructor connects the signal to a
    call of [update()]. *)
Definition emit_widgetChanged : action :=
  perform Emit_widgetChanged >> update QRect_default.

Definition setWidget (widget : option ptr) : action := fun self =>
  match widget with
  | Some w =>
      ((match m_widget self with
        | Some old => perform (Delete old)
        | None => skip
        end) >>
       set_m_widget (Some w) >>
       emit_widgetChanged) self
  | None => skip self
  end.

(** The signals [widthChanged] and [heightChanged] of the painted item,
    which the constructor connects to [resizeWidget]. *)
Definition widthChanged (x : double) : action :=
  set_width x >> resizeWidget.

Definition heightChanged (y : double) : action :=
  set_height y >> resizeWidget.

(** *** Runs of an item *)

Inductive call : Type :=
| Call_setWidget (w : option ptr)
| Call_update (rect : QRect)
| Call_paint (painter : option ptr)
| Call_event (f : member) (event : option ptr)
| Call_resizeWidget
| Call_widthChanged (x : double)
| Call_heightChanged (y : double).

Definition handler (f : member) : option ptr -> action :=
  match f with
  | QWidget_keyPressEvent => keyPressEvent
  | QWidget_keyReleaseEvent => keyReleaseEvent
  | QWidget_inputMethodEvent => inputMethodEvent
  | QWidget_focusInEvent => focusInEvent
  | QWidget_focusOutEvent => focusOutEvent
  | QWidget_mousePressEvent => mousePressEvent
  | QWidget_mouseMoveEvent => mouseMoveEvent
  | QWidget_mouseReleaseEvent => mouseReleaseEvent
  | QWidget_mouseDoubleClickEvent => mouseDoubleClickEvent
  | QWidget_wheelEvent => wheelEvent
  | QWidget_dragEnterEvent => dragEnterEvent
  | QWidget_dragMoveEvent => dragMoveEvent
  | QWidget_dragLeaveEvent => dragLeaveEvent
  | QWidget_dropEvent => dropEvent
  end.

Definition do_call (c : call) : action :=
  match c with
  | Call_setWidget w => setWidget w
  | Call_update rect => update rect
  | Call_paint painter => paint painter
  | Call_event f event => handler f event
  | Call_resizeWidget => resizeWidget
  | Call_widthChanged x => widthChanged x
  | Call_heightChanged y => heightChanged y
  end.

Fixpoint run (cs : list call) : action :=
  match cs with
  | [] => skip
  | c :: cs' => do_call c >> run cs'
  end.

(** The widgets handed to [setWidget], in order. *)
Fixpoint passed (cs : list call) : list ptr :=
  match cs with
  | [] => []
  | Call_setWidget (Some w) :: cs' => w :: passed cs'
  | _ :: cs' => passed cs'
  end.

(** The widgets deleted, in order. *)
Fixpoint deleted (log : list effect) : list ptr :=
  match log with
  | [] => []
  | Delete w :: log' => w :: deleted log'
  | _ :: log' => deleted log'
  end.

(** No widget is grabbed, sent an event, resized or deleted once it has
    been deleted; [dead] are the widgets deleted before the log. *)
Fixpoint no_use_after_delete (dead : list ptr) (log : list effect) : bool :=
  match log with
  | [] => true
  | Delete w :: log' =>
      bool_decide (w ∉ dead) && no_use_after_delete (w :: dead) log'
  | Grab w :: log' | Forward _ w _ :: log' | SetFixedSize w _ _ :: log' =>
      bool_decide (w ∉ dead) && no_use_after_delete dead log'
  | _ :: log' => no_use_after_delete dead log'
  end.

(** Each event sent to a widget is followed at once by a grab of that
    widget and a repaint request. *)
Fixpoint forward_then_refresh (log : list effect) : bool :=
  match log with
  | [] => true
  | Forward _ w _ :: log' =>
      match log' with
      | Grab w' :: ItemUpdate _ :: _ =>
          Pos.eqb w w' && forward_then_refresh log'
      | _ => false
      end
  | _ :: log' => forward_then_refresh log'
  end.

(** The pixmap that goes with a widget pointer. *)
Definition pixmap_of (w : option ptr) : QPixmap :=
  match w with
  | Some p => QPixmap_grab p
  | None => QPixmap_null
  end.

(** The extent that lets [resizeWidget] act. *)
Definition positive_extent (x y : double) : bool :=
  SFltb (double_of_Z 0) x && SFltb (double_of_Z 0) y.

End UI.

Module Shapes.
Import Qt.

(** The shapes of what one call does to an item [s]: its effects and
    the item it leaves. *)
Inductive call_shape (s : UI.DeclarativeWidget)
  : UI.call -> list UI.effect -> UI.DeclarativeWidget -> Prop :=
| shape_idle c (x y : double) :
    UI.passed [c] = [] ->
    call_shape s c []
      {| UI.m_widget := UI.m_widget s; UI.m_pixmap := UI.m_pixmap s;
         UI.width := x; UI.height := y |}
| shape_paint p :
    call_shape s (UI.Call_paint (Some p))
      [UI.DrawPixmap p 0 0 (UI.m_pixmap s)] s
| shape_refresh c w rect (x y : double) :
    UI.passed [c] = [] -> UI.m_widget s = Some w ->
    call_shape s c [UI.Grab w; UI.ItemUpdate rect]
      {| UI.m_widget := Some w; UI.m_pixmap := UI.QPixmap_grab w;
         UI.width := x; UI.height := y |}
| shape_forward f event w :
    UI.m_widget s = Some w ->
    call_shape s (UI.Call_event f event)
      [UI.Forward f w event; UI.Grab w; UI.ItemUpdate UI.QRect_default]
      {| UI.m_widget := Some w; UI.m_pixmap := UI.QPixmap_grab w;
         UI.width := UI.width s; UI.height := UI.height s |}
| shape_resize c w (x y : double) :
    UI.passed [c] = [] -> UI.m_widget s = Some w ->
    UI.positive_extent x y = true ->
    call_shape s c
      [UI.SetFixedSize w (UI.int_of_double x) (UI.int_of_double y);
       UI.Grab w; UI.ItemUpdate UI.QRect_default]
      {| UI.m_widget := Some w; UI.m_pixmap := UI.QPixmap_grab w;
         UI.width := x; UI.height := y |}
| shape_set w :
    call_shape s (UI.Call_setWidget (Some w))
      (match UI.m_widget s with
       | Some old => [UI.Delete old]
       | None => []
       end ++ [UI.Emit_widgetChanged; UI.Grab w;
               UI.ItemUpdate UI.QRect_default])%list
      {| UI.m_widget := Some w; UI.m_pixmap := UI.QPixmap_grab w;
         UI.width := UI.width s; UI.height := UI.height s |}.

End Shapes.

Import Qt JFI Schema.

(** ** Qt helpers *)

Lemma QString_isEmpty_true (s : QString) :
  QString_isEmpty s = true <-> s = "".
Proof. destruct s; simpl; split; congruence. Qed.

Lemma QString_isEmpty_false (s : QString) :
  QString_isEmpty s = false <-> s <> "".
Proof. destruct s; simpl; split; congruence. Qed.

Lemma QString_isEmpty_length (s : QString) :
  QString_isEmpty s = false <-> (1 <= String.length s)%nat.
Proof. destruct s; simpl; split; intros; try congruence; lia. Qed.

Lemma QJsonObject_isEmpty_true (o : QJsonObject) :
  QJsonObject_isEmpty o = true <-> o = ∅.
Proof.
  unfold QJsonObject_isEmpty.
  rewrite Nat.eqb_eq. apply map_size_empty_iff.
Qed.

Lemma qMax_max (a b : Z) : qMax a b = Z.max a b.
Proof. unfold qMax. destruct (Z.ltb_spec a b); lia. Qed.

(** ** The lookup helpers in terms of the map *)

Lemma JFI_Value_lookup (o : QJsonObject) (key : QString) :
  JFI_Value o key = match o !! key with Some v => v | None => Null end.
Proof.
  unfold JFI_Value, QJsonObject_contains, QJsonObject_value.
  destruct (o !! key); reflexivity.
Qed.

Lemma JFI_Value_alias_lookup (o : QJsonObject) (key alias : QString) :
  JFI_Value_alias o key alias =
  match o !! key with
  | Some v => v
  | None => match o !! alias with Some v => v | None => Null end
  end.
Proof.
  unfold JFI_Value_alias, QJsonObject_contains, QJsonObject_value.
  destruct (o !! key); [reflexivity|].
  destruct (o !! alias); reflexivity.
Qed.

Lemma extracted_title_empty : extracted_title ∅ = "".
Proof. reflexivity. Qed.

Lemma extracted_title_nonempty_object (o : QJsonObject) :
  extracted_title o <> "" -> QJsonObject_isEmpty o = false.
Proof.
  intros Ht. apply not_true_is_false. intros He.
  apply QJsonObject_isEmpty_true in He. subst o.
  apply Ht, extracted_title_empty.
Qed.

(** ** [read] as one conditional *)

Lemma read_assigns (o : QJsonObject) (d : JSON.Dataset) :
  JSON.read o d =
  if negb (QJsonObject_isEmpty o)
  then if negb (QString_isEmpty (extracted_value o))
          && negb (QString_isEmpty (extracted_title o))
       then (true, assigned o d)
       else (false, d)
  else (false, d).
Proof. reflexivity. Qed.

Lemma read_gate (o : QJsonObject) (d : JSON.Dataset) :
  JSON.read o d =
  if QString_isEmpty (extracted_value o) || QString_isEmpty (extracted_title o)
  then (false, d)
  else (true, assigned o d).
Proof.
  rewrite read_assigns.
  destruct (QString_isEmpty (extracted_title o)) eqn:Ht.
  - rewrite orb_true_r, andb_false_r. destruct (negb _); reflexivity.
  - apply QString_isEmpty_false, extracted_title_nonempty_object in Ht.
    rewrite Ht. simpl. rewrite orb_false_r, andb_true_r.
    destruct (QString_isEmpty (extracted_value o)); reflexivity.
Qed.

Lemma read_success (o : QJsonObject) (d : JSON.Dataset) :
  extracted_title o <> "" -> extracted_value o <> "" ->
  JSON.read o d = (true, assigned o d).
Proof.
  intros Ht Hv. rewrite read_gate.
  apply QString_isEmpty_false in Ht, Hv. rewrite Ht, Hv. reflexivity.
Qed.

Lemma read_failure (o : QJsonObject) (d : JSON.Dataset) :
  extracted_title o = "" \/ extracted_value o = "" ->
  JSON.read o d = (false, d).
Proof.
  intros H. rewrite read_gate.
  destruct H as [H|H]; apply QString_isEmpty_true in H; rewrite H.
  - rewrite orb_true_r. reflexivity.
  - reflexivity.
Qed.

Lemma read_valid (o : QJsonObject) (d : JSON.Dataset) :
  QString_isEmpty (extracted_title o) = false ->
  QString_isEmpty (extracted_value o) = false ->
  JSON.read o d = (true, assigned o d).
Proof.
  intros Ht Hv. apply read_success; apply QString_isEmpty_false; assumption.
Qed.

Lemma read_result_cases (o : QJsonObject) (d : JSON.Dataset) :
  JSON.read o d = (true, assigned o d) \/ JSON.read o d = (false, d).
Proof.
  rewrite read_gate. destruct (_ || _); [right | left]; reflexivity.
Qed.

Lemma same_data_assigned (o : QJsonObject) (d1 d2 : JSON.Dataset) :
  same_data (assigned o d1) (assigned o d2).
Proof. repeat split. Qed.

Lemma assigned_assigned (o : QJsonObject) (d : JSON.Dataset) :
  assigned o (assigned o d) = assigned o d.
Proof. reflexivity. Qed.

(** The schema row of a key agrees with the lookup helper [read] uses. *)
Lemma extracted_single (o : QJsonObject) (key : QString) (t : field_type) :
  extracted o {| primary := key; alias := None; type := t |} =
  coerce t (JFI_Value o key).
Proof.
  unfold extracted, lookup_with_fallback. simpl.
  rewrite JFI_Value_lookup. destruct (o !! key); [reflexivity|].
  destruct t; reflexivity.
Qed.

Lemma extracted_aliased (o : QJsonObject) (key a : QString) (t : field_type) :
  extracted o {| primary := key; alias := Some a; type := t |} =
  coerce t (JFI_Value_alias o key a).
Proof.
  unfold extracted, lookup_with_fallback. simpl.
  rewrite JFI_Value_alias_lookup. destruct (o !! key); [reflexivity|].
  destruct (o !! a); [reflexivity|]. destruct t; reflexivity.
Qed.

(** ** Successful reads *)

(** C1: for every object whose extracted title and value are both
    non-empty, [read] returns true, every row of the input schema is
    stored as the coerced extracted value (the default of its type when
    the key and its alias are absent), and the object itself is kept as
    the raw source. *)
Theorem read_valid_stores_schema (o : QJsonObject) (d : JSON.Dataset) :
  QString_isEmpty (extracted_title o) = false ->
  QString_isEmpty (extracted_value o) = false ->
  fst (JSON.read o d) = true /\
  Forall (fun f => stored (snd (JSON.read o d)) (primary f)
                   = Some (extracted o f)) schema /\
  JSON.jsonData (snd (JSON.read o d)) = o.
Proof.
  intros Ht Hv. rewrite (read_valid o d Ht Hv). simpl.
  split; [reflexivity|]. split; [|reflexivity].
  unfold schema.
  repeat (apply List.Forall_cons;
          [ first [rewrite extracted_single | rewrite extracted_aliased];
            reflexivity | ]).
  apply List.Forall_nil.
Qed.

Lemma read_valid_stores_schema_rpm :
  fst (JSON.read Samples.rpm JSON.Dataset_Dataset) = true /\
  Forall (fun f => stored (snd (JSON.read Samples.rpm JSON.Dataset_Dataset))
                     (primary f)
                   = Some (extracted Samples.rpm f)) schema /\
  JSON.jsonData (snd (JSON.read Samples.rpm JSON.Dataset_Dataset))
  = Samples.rpm.
Proof.
  apply (read_valid_stores_schema Samples.rpm JSON.Dataset_Dataset);
    vm_compute; reflexivity.
Defined.

(** ** Failure *)

Lemma extracted_title_delete (o : QJsonObject) (k : QString) :
  k <> "title" -> k <> "t" ->
  extracted_title (delete k o) = extracted_title o.
Proof.
  intros H1 H2. unfold extracted_title.
  rewrite !JFI_Value_alias_lookup, !lookup_delete_ne by done. reflexivity.
Qed.

Lemma extracted_value_delete (o : QJsonObject) (k : QString) :
  k <> "value" -> k <> "v" ->
  extracted_value (delete k o) = extracted_value o.
Proof.
  intros H1 H2. unfold extracted_value.
  rewrite !JFI_Value_alias_lookup, !lookup_delete_ne by done. reflexivity.
Qed.

Lemma read_false_cases (o : QJsonObject) (d : JSON.Dataset) :
  fst (JSON.read o d) = false <->
  extracted_title o = "" \/ extracted_value o = "".
Proof.
  rewrite read_gate, <- !QString_isEmpty_true.
  destruct (QString_isEmpty (extracted_value o)),
    (QString_isEmpty (extracted_title o)); simpl; intuition congruence.
Qed.

(** C2: [read] returns false exactly when the object is empty or the
    extracted title is empty or the extracted value is empty.  Nothing
    else makes it fail: removing any key other than the title and value
    keys and their aliases leaves the result as it was.  [read] is a
    total function whose only report is the boolean. *)
Theorem read_false_iff (o : QJsonObject) (d : JSON.Dataset) :
  (fst (JSON.read o d) = false <->
   o = ∅ \/ extracted_title o = "" \/ extracted_value o = "") /\
  (forall k : QString,
     k <> "title" -> k <> "t" -> k <> "value" -> k <> "v" ->
     fst (JSON.read (delete k o) d) = fst (JSON.read o d)).
Proof.
  split.
  - rewrite read_false_cases. split.
    + tauto.
    + intros [-> | H]; [left; apply extracted_title_empty | exact H].
  - intros k Ht1 Ht2 Hv1 Hv2. rewrite !read_gate.
    rewrite extracted_title_delete, extracted_value_delete by assumption.
    destruct (_ || _); reflexivity.
Qed.

Lemma read_false_iff_rpm :
  (fst (JSON.read Samples.rpm JSON.Dataset_Dataset) = false <->
   Samples.rpm = ∅ \/ extracted_title Samples.rpm = ""
   \/ extracted_value Samples.rpm = "") /\
  fst (JSON.read (delete "units" Samples.rpm) JSON.Dataset_Dataset)
  = fst (JSON.read Samples.rpm JSON.Dataset_Dataset).
Proof.
  pose proof (read_false_iff Samples.rpm JSON.Dataset_Dataset) as [H1 H2].
  split; [exact H1 | apply (H2 "units"); discriminate].
Defined.

(** C3: [read] is atomic.  When it returns true the dataset it leaves
    has every member of the data model taken from the object, whatever
    the dataset held before; when it returns false, which it does for
    the empty object and for an empty extracted title or value, the
    dataset is exactly the one before the call, also when that one came
    from an earlier successful [read]. *)
Theorem read_atomic (o : QJsonObject) (d : JSON.Dataset) :
  (fst (JSON.read o d) = true ->
   snd (JSON.read o d) = assigned o d /\
   forall d0 : JSON.Dataset, same_data (snd (JSON.read o d)) (assigned o d0)) /\
  (fst (JSON.read o d) = false -> snd (JSON.read o d) = d) /\
  (o = ∅ \/ extracted_title o = "" \/ extracted_value o = "" ->
   JSON.read o d = (false, d)) /\
  (forall o0 : QJsonObject,
     fst (JSON.read o0 d) = true ->
     JSON.read ∅ (snd (JSON.read o0 d)) = (false, snd (JSON.read o0 d))).
Proof.
  split; [|split; [|split]].
  - intros Hb. destruct (read_result_cases o d) as [E|E]; rewrite E in *.
    + split; [reflexivity | intros d0; apply same_data_assigned].
    + discriminate.
  - intros Hb. destruct (read_result_cases o d) as [E|E]; rewrite E in *.
    + discriminate.
    + reflexivity.
  - intros [-> | H]; apply read_failure; [left; reflexivity | exact H].
  - intros o0 _. apply read_failure. left. reflexivity.
Qed.

Lemma read_atomic_rpm :
  snd (JSON.read Samples.rpm JSON.Dataset_Dataset)
  = assigned Samples.rpm JSON.Dataset_Dataset /\
  JSON.read ∅ (snd (JSON.read Samples.rpm JSON.Dataset_Dataset))
  = (false, snd (JSON.read Samples.rpm JSON.Dataset_Dataset)) /\
  snd (JSON.read ∅ (assigned Samples.rpm JSON.Dataset_Dataset))
  = assigned Samples.rpm JSON.Dataset_Dataset.
Proof.
  split; [|split].
  - apply (read_atomic Samples.rpm JSON.Dataset_Dataset). reflexivity.
  - apply (read_atomic Samples.rpm JSON.Dataset_Dataset). reflexivity.
  - apply (read_atomic ∅ (assigned Samples.rpm JSON.Dataset_Dataset)).
    reflexivity.
Defined.

(** ** The sample count *)

Lemma toInt_double_of_Z_0 : toInt (Double (double_of_Z 0)) = 0.
Proof. reflexivity. Qed.

Lemma toInt_double_of_Z_2048 : toInt (Double (double_of_Z 2048)) = 2048.
Proof. reflexivity. Qed.

Lemma fftSamples_after_read (o : QJsonObject) (d : JSON.Dataset) :
  QString_isEmpty (extracted_title o) = false ->
  QString_isEmpty (extracted_value o) = false ->
  JSON.fftSamples (snd (JSON.read o d))
  = qMax 1 (toInt (match o !! "fftSamples" with
                   | Some v => v
                   | None => Null
                   end)).
Proof.
  intros Ht Hv. rewrite (read_valid o d Ht Hv). simpl.
  unfold JSON.fftSamples. simpl. rewrite JFI_Value_lookup. reflexivity.
Qed.

(** C4: [fftSamples()] returns the larger of 1 and the stored value, so
    never less than 1.  After a successful [read] of an object whose
    [fftSamples] is 0 or which has no [fftSamples] key it returns 1, and
    after one of an object whose [fftSamples] is 2048 it returns
    2048. *)
Theorem fftSamples_floor :
  (forall d : JSON.Dataset,
     JSON.fftSamples d = Z.max 1 (JSON.m_fftSamples d) /\
     1 <= JSON.fftSamples d) /\
  (forall (o : QJsonObject) (d : JSON.Dataset),
     QString_isEmpty (extracted_title o) = false ->
     QString_isEmpty (extracted_value o) = false ->
     (o !! "fftSamples" = Some (Double (double_of_Z 0)) \/
      o !! "fftSamples" = None ->
      fst (JSON.read o d) = true /\
      JSON.fftSamples (snd (JSON.read o d)) = 1) /\
     (o !! "fftSamples" = Some (Double (double_of_Z 2048)) ->
      fst (JSON.read o d) = true /\
      JSON.fftSamples (snd (JSON.read o d)) = 2048)).
Proof.
  split.
  - intros d. unfold JSON.fftSamples. rewrite qMax_max. lia.
  - intros o d Ht Hv.
    rewrite (fftSamples_after_read o d Ht Hv), (read_valid o d Ht Hv).
    split.
    + intros [-> | ->]; split; reflexivity.
    + intros ->. split; reflexivity.
Qed.

Lemma fftSamples_floor_samples :
  JSON.fftSamples
    (snd (JSON.read Samples.speed JSON.Dataset_Dataset)) = 1 /\
  JSON.fftSamples
    (snd (JSON.read (<["fftSamples" := Double (double_of_Z 0)]> Samples.speed)
            JSON.Dataset_Dataset)) = 1 /\
  JSON.fftSamples
    (snd (JSON.read
            (<["fftSamples" := Double (double_of_Z 2048)]> Samples.speed)
            JSON.Dataset_Dataset)) = 2048.
Proof.
  pose proof fftSamples_floor as [_ H].
  split; [|split].
  - apply (H Samples.speed JSON.Dataset_Dataset);
      [reflexivity | reflexivity | right; reflexivity].
  - apply (H (<["fftSamples" := Double (double_of_Z 0)]> Samples.speed)
             JSON.Dataset_Dataset);
      [reflexivity | reflexivity | left; reflexivity].
  - apply (H (<["fftSamples" := Double (double_of_Z 2048)]> Samples.speed)
             JSON.Dataset_Dataset); reflexivity.
Defined.

(** ** Construction *)

(** C6, as stated: a freshly constructed dataset does not have every
    member at the stated default, because the stored sample count is
    not 0. *)
Lemma fresh_fftSamples_not_zero :
  ~ (JSON.m_fft JSON.Dataset_Dataset = false /\
     JSON.m_led JSON.Dataset_Dataset = false /\
     JSON.m_log JSON.Dataset_Dataset = false /\
     JSON.m_graph JSON.Dataset_Dataset = false /\
     JSON.m_title JSON.Dataset_Dataset = "" /\
     JSON.m_value JSON.Dataset_Dataset = "" /\
     JSON.m_units JSON.Dataset_Dataset = "" /\
     JSON.m_widget JSON.Dataset_Dataset = "" /\
     JSON.m_min JSON.Dataset_Dataset = S754_zero false /\
     JSON.m_max JSON.Dataset_Dataset = S754_zero false /\
     JSON.m_alarm JSON.Dataset_Dataset = S754_zero false /\
     JSON.m_fftSamples JSON.Dataset_Dataset = 0).
Proof.
  intros H. do 11 apply proj2 in H. simpl in H. discriminate H.
Qed.

(** C6, amended: a freshly constructed dataset has the four flags
    false, the four strings empty, min, max and alarm 0, the index 0,
    no raw source, and the stored sample count 1024, which is also what
    [fftSamples()] returns. *)
Theorem fresh_defaults :
  JSON.m_fft JSON.Dataset_Dataset = false /\
  JSON.m_led JSON.Dataset_Dataset = false /\
  JSON.m_log JSON.Dataset_Dataset = false /\
  JSON.m_graph JSON.Dataset_Dataset = false /\
  JSON.m_title JSON.Dataset_Dataset = "" /\
  JSON.m_value JSON.Dataset_Dataset = "" /\
  JSON.m_units JSON.Dataset_Dataset = "" /\
  JSON.m_widget JSON.Dataset_Dataset = "" /\
  JSON.m_min JSON.Dataset_Dataset = S754_zero false /\
  JSON.m_max JSON.Dataset_Dataset = S754_zero false /\
  JSON.m_alarm JSON.Dataset_Dataset = S754_zero false /\
  JSON.m_index JSON.Dataset_Dataset = 0 /\
  JSON.m_jsonData JSON.Dataset_Dataset = ∅ /\
  JSON.m_fftSamples JSON.Dataset_Dataset = 1024 /\
  JSON.fftSamples JSON.Dataset_Dataset = 1024.
Proof. repeat split. Qed.

(** ** Repeated reads *)

(** C7: reading the same valid object twice in succession returns true
    both times and leaves, after the second call, the dataset the first
    call left. *)
Theorem read_idempotent (o : QJsonObject) (d : JSON.Dataset) :
  QString_isEmpty (extracted_title o) = false ->
  QString_isEmpty (extracted_value o) = false ->
  fst (JSON.read o d) = true /\
  fst (JSON.read o (snd (JSON.read o d))) = true /\
  snd (JSON.read o (snd (JSON.read o d))) = snd (JSON.read o d).
Proof.
  intros Ht Hv. rewrite (read_valid o d Ht Hv). simpl.
  rewrite (read_valid o (assigned o d) Ht Hv). simpl.
  rewrite assigned_assigned. repeat split.
Qed.

Lemma read_idempotent_rpm :
  fst (JSON.read Samples.rpm JSON.Dataset_Dataset) = true /\
  fst (JSON.read Samples.rpm
         (snd (JSON.read Samples.rpm JSON.Dataset_Dataset))) = true /\
  snd (JSON.read Samples.rpm
         (snd (JSON.read Samples.rpm JSON.Dataset_Dataset)))
  = snd (JSON.read Samples.rpm JSON.Dataset_Dataset).
Proof.
  apply (read_idempotent Samples.rpm JSON.Dataset_Dataset); reflexivity.
Defined.

(** ** The index *)

(** C9: the index is 0 at construction, and [read] never assigns it:
    after a call, successful or not, it is what it was before. *)
Theorem read_keeps_index :
  JSON.m_index JSON.Dataset_Dataset = 0 /\
  forall (o : QJsonObject) (d : JSON.Dataset),
    JSON.m_index (snd (JSON.read o d)) = JSON.m_index d.
Proof.
  split; [reflexivity|]. intros o d.
  destruct (read_result_cases o d) as [E|E]; rewrite E; reflexivity.
Qed.

(** ** Whitespace *)

(** C10: the gate tests emptiness only.  For every object whose
    extracted title and value each hold at least one character, [read]
    returns true; a title or a value made of a single space counts. *)
Theorem read_accepts_whitespace (o : QJsonObject) (d : JSON.Dataset) :
  (1 <= String.length (extracted_title o))%nat ->
  (1 <= String.length (extracted_value o))%nat ->
  fst (JSON.read o d) = true.
Proof.
  intros Ht Hv. apply QString_isEmpty_length in Ht, Hv.
  rewrite (read_valid o d Ht Hv). reflexivity.
Qed.

Lemma read_accepts_whitespace_blank :
  extracted_title Samples.blank = " " /\
  extracted_value Samples.blank = " " /\
  fst (JSON.read Samples.blank JSON.Dataset_Dataset) = true.
Proof.
  split; [reflexivity|]. split; [reflexivity|].
  apply (read_accepts_whitespace Samples.blank JSON.Dataset_Dataset);
    vm_compute; lia.
Defined.

(** * Further properties of [read] *)

Import Runs.

Lemma read_accepted (o : QJsonObject) (d : JSON.Dataset) :
  JSON.read o d = if accepted o then (true, assigned o d) else (false, d).
Proof.
  rewrite read_gate. unfold accepted.
  destruct (QString_isEmpty (extracted_value o)),
    (QString_isEmpty (extracted_title o)); reflexivity.
Qed.

Lemma read_all_snoc (os : list QJsonObject) (o : QJsonObject)
  (d : JSON.Dataset) :
  read_all (os ++ [o]) d = snd (JSON.read o (read_all os d)).
Proof. unfold read_all. rewrite fold_left_app. reflexivity. Qed.

Lemma last_accepted_snoc (os : list QJsonObject) (o : QJsonObject) :
  last_accepted (os ++ [o]) = if accepted o then Some o else last_accepted os.
Proof.
  unfold last_accepted. rewrite rev_unit. simpl.
  destruct (accepted o); reflexivity.
Qed.

(** X1: a successful [read] wipes out whatever earlier reads did: for an
    object that passes the test, reading it after any other object
    gives the result of reading it directly. *)
Theorem read_overwrites (o1 o2 : QJsonObject) (d : JSON.Dataset) :
  accepted o2 = true ->
  JSON.read o2 (snd (JSON.read o1 d)) = JSON.read o2 d.
Proof.
  intros H2. rewrite !(read_accepted o2), H2.
  rewrite (read_accepted o1). destruct (accepted o1); reflexivity.
Qed.

Lemma read_overwrites_rpm_speed :
  JSON.read Samples.speed (snd (JSON.read Samples.rpm JSON.Dataset_Dataset))
  = JSON.read Samples.speed JSON.Dataset_Dataset.
Proof.
  apply (read_overwrites Samples.rpm Samples.speed JSON.Dataset_Dataset).
  reflexivity.
Defined.

(** X2: after any sequence of reads the dataset is the one the last
    accepted object of the sequence assigns, and the dataset before the
    sequence when no object was accepted: rejected objects leave no
    trace, and neither do accepted ones before the last. *)
Theorem read_all_last_accepted (os : list QJsonObject) (d : JSON.Dataset) :
  read_all os d =
  match last_accepted os with
  | Some o => assigned o d
  | None => d
  end.
Proof.
  induction os as [|o os IH] using rev_ind; [reflexivity|].
  rewrite read_all_snoc, last_accepted_snoc, read_accepted.
  destruct (accepted o); simpl; [|exact IH].
  rewrite IH. destruct (last_accepted os); reflexivity.
Qed.

Lemma toInt_range (v : QJsonValue) : INT_MIN <= toInt v <= INT_MAX.
Proof.
  assert (H0 : INT_MIN <= 0 <= INT_MAX) by (unfold INT_MIN, INT_MAX; lia).
  destruct v; simpl; try exact H0.
  destruct (double_whole d) as [z|]; [|exact H0].
  destruct (INT_MIN <=? z) eqn:Hlo; simpl; [|exact H0].
  destruct (z <=? INT_MAX) eqn:Hhi; [|exact H0].
  apply Z.leb_le in Hlo, Hhi. lia.
Qed.

Lemma accepted_title (o : QJsonObject) :
  accepted o = true -> QString_isEmpty (extracted_title o) = false.
Proof.
  unfold accepted. intros H. apply andb_true_iff in H as [_ H].
  apply negb_true_iff in H. exact H.
Qed.

Lemma accepted_value (o : QJsonObject) :
  accepted o = true -> QString_isEmpty (extracted_value o) = false.
Proof.
  unfold accepted. intros H. apply andb_true_iff in H as [H _].
  apply negb_true_iff in H. exact H.
Qed.

Lemma accepted_nonempty (o : QJsonObject) :
  accepted o = true -> QJsonObject_isEmpty o = false.
Proof.
  intros H. apply extracted_title_nonempty_object, QString_isEmpty_false,
    accepted_title, H.
Qed.

Lemma last_accepted_accepted (os : list QJsonObject) (o : QJsonObject) :
  last_accepted os = Some o -> accepted o = true.
Proof. unfold last_accepted. intros H. apply find_some in H. tauto. Qed.

(** X3: the dataset a program holds after construction and any sequence
    of reads keeps these invariants: the index is 0; the title is empty
    exactly when the value is empty, exactly when the raw source is
    empty, and then the dataset is still the constructed one;
    [fftSamples()] lies between 1 and the largest [int]. *)
Theorem read_all_invariant (os : list QJsonObject) :
  let d := read_all os JSON.Dataset_Dataset in
  JSON.m_index d = 0 /\
  QString_isEmpty (JSON.value d) = QString_isEmpty (JSON.title d) /\
  QJsonObject_isEmpty (JSON.jsonData d) = QString_isEmpty (JSON.title d) /\
  (QString_isEmpty (JSON.title d) = true -> d = JSON.Dataset_Dataset) /\
  1 <= JSON.fftSamples d <= INT_MAX.
Proof.
  cbv zeta. rewrite read_all_last_accepted.
  destruct (last_accepted os) as [o|] eqn:E.
  - apply last_accepted_accepted in E.
    pose proof (accepted_title o E) as Ht.
    pose proof (accepted_value o E) as Hv.
    pose proof (accepted_nonempty o E) as Ho.
    unfold JSON.value, JSON.title, JSON.jsonData, JSON.fftSamples. simpl.
    rewrite Ht, Hv, Ho. repeat split; try discriminate.
    + rewrite qMax_max. lia.
    + rewrite qMax_max.
      pose proof (toInt_range (JFI_Value o "fftSamples")) as [_ H].
      unfold INT_MAX in *. lia.
  - repeat split; try reflexivity; vm_compute; discriminate.
Qed.

(** X4: reading back the raw source is a round trip.  For the dataset a
    program holds after construction and any sequence of reads, a
    [read] of its own [jsonData()] leaves it as it is, and returns true
    exactly when the title is not empty. *)
Theorem read_jsonData_roundtrip (os : list QJsonObject) :
  let d := read_all os JSON.Dataset_Dataset in
  JSON.read (JSON.jsonData d) d
  = (negb (QString_isEmpty (JSON.title d)), d).
Proof.
  cbv zeta. rewrite read_all_last_accepted.
  destruct (last_accepted os) as [o|] eqn:E; [|reflexivity].
  apply last_accepted_accepted in E.
  unfold JSON.jsonData, JSON.title. simpl.
  rewrite read_accepted, E, (accepted_title o E). reflexivity.
Qed.

(** X5: what [fftSamples()] returns after a successful [read].  When the
    [fftSamples] key holds a number that is whole and lies between 1
    and the largest [int], it is that number; when the key holds a
    number that is not whole, or below 1, or beyond the largest [int],
    or holds something that is not a number, or is absent, it is 1. *)
Theorem fftSamples_after_valid_read (o : QJsonObject) (d : JSON.Dataset) :
  accepted o = true ->
  (forall (x : double) (n : Z),
     o !! "fftSamples" = Some (Double x) -> double_whole x = Some n ->
     1 <= n <= INT_MAX ->
     JSON.fftSamples (snd (JSON.read o d)) = n) /\
  (forall (x : double) (n : Z),
     o !! "fftSamples" = Some (Double x) -> double_whole x = Some n ->
     n < 1 \/ INT_MAX < n ->
     JSON.fftSamples (snd (JSON.read o d)) = 1) /\
  (forall x : double,
     o !! "fftSamples" = Some (Double x) -> double_whole x = None ->
     JSON.fftSamples (snd (JSON.read o d)) = 1) /\
  (forall v : QJsonValue,
     o !! "fftSamples" = Some v -> (forall x, v <> Double x) ->
     JSON.fftSamples (snd (JSON.read o d)) = 1) /\
  (o !! "fftSamples" = None ->
   JSON.fftSamples (snd (JSON.read o d)) = 1).
Proof.
  intros Ha.
  rewrite (fftSamples_after_read o d (accepted_title o Ha)
             (accepted_value o Ha)).
  rewrite qMax_max.
  split; [|split; [|split; [|split]]].
  - intros x n -> Hw Hn. unfold toInt. rewrite Hw.
    destruct (Z.leb_spec INT_MIN n), (Z.leb_spec n INT_MAX); simpl;
      unfold INT_MIN, INT_MAX in *; lia.
  - intros x n -> Hw Hn. unfold toInt. rewrite Hw.
    destruct (Z.leb_spec INT_MIN n), (Z.leb_spec n INT_MAX); simpl;
      unfold INT_MIN, INT_MAX in *; lia.
  - intros x -> Hw. unfold toInt. rewrite Hw. reflexivity.
  - intros v -> Hv. destruct v; try reflexivity.
    exfalso. apply (Hv d0). reflexivity.
  - intros ->. reflexivity.
Qed.

Lemma fftSamples_after_valid_read_samples :
  JSON.fftSamples
    (snd (JSON.read (<["fftSamples" := Double (double_of_Z 4096)]>
                       Samples.speed) JSON.Dataset_Dataset)) = 4096 /\
  JSON.fftSamples
    (snd (JSON.read (<["fftSamples" := Double (double_of_Z (-4))]>
                       Samples.speed) JSON.Dataset_Dataset)) = 1 /\
  JSON.fftSamples
    (snd (JSON.read (<["fftSamples" := Double (S754_finite false 5 (-1))]>
                       Samples.speed) JSON.Dataset_Dataset)) = 1 /\
  JSON.fftSamples
    (snd (JSON.read (<["fftSamples" := String_ "2048"]> Samples.speed)
            JSON.Dataset_Dataset)) = 1 /\
  JSON.fftSamples
    (snd (JSON.read Samples.speed JSON.Dataset_Dataset)) = 1.
Proof.
  split; [|split; [|split; [|split]]].
  - refine (proj1 (fftSamples_after_valid_read
             (<["fftSamples" := Double (double_of_Z 4096)]> Samples.speed)
             JSON.Dataset_Dataset _) (double_of_Z 4096) 4096 _ _ _);
      [reflexivity | reflexivity | reflexivity
      | vm_compute; split; discriminate].
  - refine (proj1 (proj2 (fftSamples_after_valid_read
             (<["fftSamples" := Double (double_of_Z (-4))]> Samples.speed)
             JSON.Dataset_Dataset _)) (double_of_Z (-4)) (-4) _ _ _);
      [reflexivity | reflexivity | reflexivity | left; reflexivity].
  - refine (proj1 (proj2 (proj2 (fftSamples_after_valid_read
             (<["fftSamples" := Double (S754_finite false 5 (-1))]>
                Samples.speed)
             JSON.Dataset_Dataset _))) (S754_finite false 5 (-1)) _ _);
      reflexivity.
  - refine (proj1 (proj2 (proj2 (proj2 (fftSamples_after_valid_read
             (<["fftSamples" := String_ "2048"]> Samples.speed)
             JSON.Dataset_Dataset _)))) (String_ "2048") _ _);
      [reflexivity | reflexivity | discriminate].
  - refine (proj2 (proj2 (proj2 (proj2 (fftSamples_after_valid_read
             Samples.speed JSON.Dataset_Dataset _)))) _);
      reflexivity.
Defined.

Lemma stored_assigned (o : QJsonObject) (d : JSON.Dataset) (f : field) :
  In f schema -> stored (assigned o d) (primary f) = Some (extracted o f).
Proof.
  unfold schema. simpl. intros H.
  repeat (destruct H as [<- | H];
          [first [rewrite extracted_single | rewrite extracted_aliased];
           reflexivity|]).
  destruct H.
Qed.

Lemma extracted_agree (o o' : QJsonObject) (f : field) :
  o !! primary f = o' !! primary f ->
  (forall a, alias f = Some a -> o !! a = o' !! a) ->
  extracted o f = extracted o' f.
Proof.
  intros Hp Ha. unfold extracted, lookup_with_fallback. rewrite Hp.
  destruct (o' !! primary f); [reflexivity|].
  destruct (alias f) as [a|]; [|reflexivity].
  rewrite (Ha a eq_refl). reflexivity.
Qed.

(** X6: each result of [read] depends on its own keys only.  Two objects
    that agree on [title], [t], [value] and [v] get the same boolean,
    whatever else they hold and whatever the datasets held; and when
    both are accepted, a field of the schema gets the same stored value
    from both as soon as they agree on its key and its alias. *)
Theorem read_depends_on_own_keys (o o' : QJsonObject) (d d' : JSON.Dataset) :
  (o !! "title" = o' !! "title" -> o !! "t" = o' !! "t" ->
   o !! "value" = o' !! "value" -> o !! "v" = o' !! "v" ->
   fst (JSON.read o d) = fst (JSON.read o' d')) /\
  (forall f : field,
     In f schema -> accepted o = true -> accepted o' = true ->
     o !! primary f = o' !! primary f ->
     (forall a, alias f = Some a -> o !! a = o' !! a) ->
     stored (snd (JSON.read o d)) (primary f)
     = stored (snd (JSON.read o' d')) (primary f)).
Proof.
  split.
  - intros H1 H2 H3 H4. rewrite !read_accepted.
    assert (E : accepted o = accepted o').
    { unfold accepted, extracted_value, extracted_title.
      rewrite !JFI_Value_alias_lookup, H1, H2, H3, H4. reflexivity. }
    rewrite E. destruct (accepted o'); reflexivity.
  - intros f Hf Ho Ho' Hp Ha. rewrite !read_accepted, Ho, Ho'. simpl.
    rewrite !stored_assigned by assumption.
    f_equal. apply extracted_agree; assumption.
Qed.

Lemma read_depends_on_own_keys_rpm :
  fst (JSON.read (<["led" := Bool true]> Samples.rpm) JSON.Dataset_Dataset)
  = fst (JSON.read Samples.rpm
           (snd (JSON.read Samples.speed JSON.Dataset_Dataset))) /\
  stored (snd (JSON.read (<["led" := Bool true]> Samples.rpm)
                 JSON.Dataset_Dataset)) "units"
  = stored (snd (JSON.read Samples.rpm
                   (snd (JSON.read Samples.speed JSON.Dataset_Dataset))))
      "units".
Proof.
  pose proof (read_depends_on_own_keys
                (<["led" := Bool true]> Samples.rpm) Samples.rpm
                JSON.Dataset_Dataset
                (snd (JSON.read Samples.speed JSON.Dataset_Dataset)))
    as [H1 H2].
  split.
  - apply H1; reflexivity.
  - apply (H2 {| primary := "units"; alias := Some "u"; type := TString |}).
    + unfold schema. simpl. tauto.
    + reflexivity.
    + reflexivity.
    + reflexivity.
    + intros a [= <-]. reflexivity.
Defined.

(** X7: the primary key shadows the alias also when its value is
    unusable.  When [title] or [value] is present and holds anything
    but a non-empty string (a number, a boolean, null, the empty
    string), [read] returns false and leaves the dataset as it was,
    whatever [t], [v] and the other keys hold. *)
Theorem read_rejects_unusable_primary
  (o : QJsonObject) (d : JSON.Dataset) (v : QJsonValue) :
  o !! "title" = Some v \/ o !! "value" = Some v ->
  (forall s : QString, v = String_ s -> s = "") ->
  JSON.read o d = (false, d).
Proof.
  intros Hk Hv.
  assert (Hs : toString v = "").
  { destruct v; try reflexivity. apply (Hv s). reflexivity. }
  apply read_failure. destruct Hk as [Hk|Hk]; [left | right].
  - unfold extracted_title. rewrite JFI_Value_alias_lookup, Hk. exact Hs.
  - unfold extracted_value. rewrite JFI_Value_alias_lookup, Hk. exact Hs.
Qed.

Lemma read_rejects_unusable_primary_number :
  JSON.read (<["title" := Double (double_of_Z 5)]> Samples.speed)
    JSON.Dataset_Dataset
  = (false, JSON.Dataset_Dataset).
Proof.
  apply (read_rejects_unusable_primary
           (<["title" := Double (double_of_Z 5)]> Samples.speed)
           JSON.Dataset_Dataset (Double (double_of_Z 5))).
  - left. reflexivity.
  - intros s H. discriminate H.
Defined.

(** * The widget item *)

Lemma handler_EXEC_EVENT (f : UI.member) (event : option UI.ptr) :
  UI.handler f event = UI.EXEC_EVENT f event.
Proof. destruct f; reflexivity. Qed.

Lemma run_cons (c : UI.call) (cs : list UI.call) (s : UI.DeclarativeWidget) :
  UI.run (c :: cs) s =
  ((fst (UI.do_call c s) ++ fst (UI.run cs (snd (UI.do_call c s))))%list,
   snd (UI.run cs (snd (UI.do_call c s)))).
Proof.
  simpl. unfold UI.seq. destruct (UI.do_call c s) as [l1 s1]. simpl.
  destruct (UI.run cs s1) as [l2 s2]. reflexivity.
Qed.

Import Shapes.

Ltac by_idle_with x y H :=
  match goal with
  | |- call_shape ?s ?c _ _ => exact (shape_idle s c x y H)
  end.

Ltac by_idle x y :=
  match goal with
  | |- call_shape ?s ?c _ _ => exact (shape_idle s c x y eq_refl)
  end.

Lemma EXEC_EVENT_shape (f : UI.member) (event : option UI.ptr)
  (s : UI.DeclarativeWidget) :
  call_shape s (UI.Call_event f event)
    (fst (UI.EXEC_EVENT f event s)) (snd (UI.EXEC_EVENT f event s)).
Proof.
  destruct s as [[w|] pm x y]; simpl.
  - exact (shape_forward (UI.Build_DeclarativeWidget (Some w) pm x y)
             f event w eq_refl).
  - by_idle x y.
Qed.

Lemma resizeWidget_shape (c : UI.call) (mw : option UI.ptr)
  (pm : UI.QPixmap) (x0 y0 x y : double) :
  UI.passed [c] = [] ->
  call_shape (UI.Build_DeclarativeWidget mw pm x0 y0) c
    (fst (UI.resizeWidget (UI.Build_DeclarativeWidget mw pm x y)))
    (snd (UI.resizeWidget (UI.Build_DeclarativeWidget mw pm x y))).
Proof.
  intros Hc. destruct mw as [w|]; unfold UI.resizeWidget; simpl.
  - destruct (SFltb (S754_zero false) x && SFltb (S754_zero false) y) eqn:E;
      simpl.
    + exact (shape_resize (UI.Build_DeclarativeWidget (Some w) pm x0 y0)
               c w x y Hc eq_refl E).
    + by_idle_with x y Hc.
  - by_idle_with x y Hc.
Qed.

Lemma widthChanged_resizeWidget (mw : option UI.ptr) (pm : UI.QPixmap)
  (x0 y0 x : double) :
  UI.widthChanged x (UI.Build_DeclarativeWidget mw pm x0 y0)
  = UI.resizeWidget (UI.Build_DeclarativeWidget mw pm x y0).
Proof.
  unfold UI.widthChanged, UI.seq, UI.set_width. simpl.
  destruct (UI.resizeWidget _). reflexivity.
Qed.

Lemma heightChanged_resizeWidget (mw : option UI.ptr) (pm : UI.QPixmap)
  (x0 y0 y : double) :
  UI.heightChanged y (UI.Build_DeclarativeWidget mw pm x0 y0)
  = UI.resizeWidget (UI.Build_DeclarativeWidget mw pm x0 y).
Proof.
  unfold UI.heightChanged, UI.seq, UI.set_height. simpl.
  destruct (UI.resizeWidget _). reflexivity.
Qed.

Lemma do_call_shape (c : UI.call) (s : UI.DeclarativeWidget) :
  call_shape s c (fst (UI.do_call c s)) (snd (UI.do_call c s)).
Proof.
  destruct s as [mw pm x0 y0].
  destruct c as [[w|]|rect|[p|]|f event| |x|y].
  - destruct mw as [old|];
      match goal with |- call_shape ?s _ _ _ => exact (shape_set s w) end.
  - by_idle x0 y0.
  - destruct mw as [w|]; simpl.
    + exact (shape_refresh (UI.Build_DeclarativeWidget (Some w) pm x0 y0)
               (UI.Call_update rect) w rect x0 y0 eq_refl eq_refl).
    + by_idle x0 y0.
  - apply shape_paint.
  - by_idle x0 y0.
  - simpl. rewrite handler_EXEC_EVENT. apply EXEC_EVENT_shape.
  - apply (resizeWidget_shape UI.Call_resizeWidget). reflexivity.
  - simpl. rewrite widthChanged_resizeWidget.
    apply (resizeWidget_shape (UI.Call_widthChanged x) mw pm x0 y0 x y0).
    reflexivity.
  - simpl. rewrite heightChanged_resizeWidget.
    apply (resizeWidget_shape (UI.Call_heightChanged y) mw pm x0 y0 x0 y).
    reflexivity.
Qed.

Ltac shape_cases c s :=
  let H := fresh "H" in
  let l := fresh "l" in
  let s1 := fresh "s1" in
  pose proof (do_call_shape c s) as H;
  destruct (UI.do_call c s) as [l s1]; simpl in H |- *;
  inversion H; subst; clear H; simpl in *.

Lemma do_call_pixmap (c : UI.call) (s : UI.DeclarativeWidget) :
  UI.m_pixmap s = UI.pixmap_of (UI.m_widget s) ->
  UI.m_pixmap (snd (UI.do_call c s))
  = UI.pixmap_of (UI.m_widget (snd (UI.do_call c s))).
Proof. intros Hs. shape_cases c s; auto. Qed.

Lemma run_pixmap (cs : list UI.call) (s : UI.DeclarativeWidget) :
  UI.m_pixmap s = UI.pixmap_of (UI.m_widget s) ->
  UI.m_pixmap (snd (UI.run cs s))
  = UI.pixmap_of (UI.m_widget (snd (UI.run cs s))).
Proof.
  revert s. induction cs as [|c cs IH]; intros s Hs; [exact Hs|].
  rewrite run_cons. simpl. apply IH, do_call_pixmap, Hs.
Qed.

(** X8: the pixmap never lags behind the widget.  After construction
    and any sequence of calls the pixmap is the grab of the widget the
    item holds (the null pixmap when it holds none), so [paint] with a
    painter draws the current widget at the origin and never one that
    was replaced. *)
Theorem pixmap_follows_widget (cs : list UI.call) :
  let s := snd (UI.run cs UI.DeclarativeWidget_DeclarativeWidget) in
  UI.m_pixmap s = UI.pixmap_of (UI.m_widget s) /\
  forall p : UI.ptr,
    fst (UI.paint (Some p) s)
    = [UI.DrawPixmap p 0 0 (UI.pixmap_of (UI.m_widget s))].
Proof.
  cbv zeta.
  assert (H : UI.m_pixmap
                (snd (UI.run cs UI.DeclarativeWidget_DeclarativeWidget))
              = UI.pixmap_of
                  (UI.m_widget
                     (snd (UI.run cs UI.DeclarativeWidget_DeclarativeWidget)))).
  { apply run_pixmap. reflexivity. }
  split; [exact H|]. intros p. simpl. rewrite H. reflexivity.
Qed.

Lemma forward_then_refresh_app (l1 l2 : list UI.effect) :
  UI.forward_then_refresh l1 = true -> UI.forward_then_refresh l2 = true ->
  UI.forward_then_refresh (l1 ++ l2) = true.
Proof.
  intros H1 H2. induction l1 as [|e l1 IH]; [exact H2|].
  destruct e; simpl in *; try (apply IH; exact H1).
  destruct l1 as [|[w'| | | | | |] [|[|rect| | | | |] l1]]; try discriminate.
  apply andb_true_iff in H1 as [Hw H1].
  change (Pos.eqb w w' && UI.forward_then_refresh
            ((UI.Grab w' :: UI.ItemUpdate rect :: l1) ++ l2) = true).
  rewrite Hw. simpl. apply IH. exact H1.
Qed.

Lemma do_call_forward (c : UI.call) (s : UI.DeclarativeWidget) :
  UI.forward_then_refresh (fst (UI.do_call c s)) = true.
Proof.
  shape_cases c s; try reflexivity.
  - rewrite Pos.eqb_refl. reflexivity.
  - destruct (UI.m_widget s); reflexivity.
Qed.

(** X9: every event that reaches the widget refreshes the picture.  In
    any sequence of calls from any item, each event sent on to the
    widget is followed at once by a grab of that same widget and a
    repaint request. *)
Theorem forwarded_events_refresh (cs : list UI.call)
  (s : UI.DeclarativeWidget) :
  UI.forward_then_refresh (fst (UI.run cs s)) = true.
Proof.
  revert s. induction cs as [|c cs IH]; intros s; [reflexivity|].
  rewrite run_cons. simpl.
  apply forward_then_refresh_app; [apply do_call_forward | apply IH].
Qed.

(** ** Ownership of the widget *)

Lemma passed_cons (c : UI.call) (cs : list UI.call) :
  UI.passed (c :: cs) = (UI.passed [c] ++ UI.passed cs)%list.
Proof.
  destruct c as [[w|]|rect|p|f event| |x|y]; reflexivity.
Qed.

Lemma deleted_app (l1 l2 : list UI.effect) :
  UI.deleted (l1 ++ l2) = (UI.deleted l1 ++ UI.deleted l2)%list.
Proof.
  induction l1 as [|e l1 IH]; [reflexivity|].
  destruct e; simpl; rewrite IH; reflexivity.
Qed.

(** A call other than [setWidget] with a widget keeps the widget and
    touches no other. *)
Lemma quiet_call (c : UI.call) (s : UI.DeclarativeWidget) :
  UI.passed [c] = [] ->
  UI.m_widget (snd (UI.do_call c s)) = UI.m_widget s /\
  Forall (fun e => match e with
                   | UI.Grab w | UI.Forward _ w _ | UI.SetFixedSize w _ _ =>
                       UI.m_widget s = Some w
                   | UI.Delete _ | UI.Emit_widgetChanged => False
                   | _ => True
                   end) (fst (UI.do_call c s)).
Proof.
  intros Hc. pose proof (do_call_shape c s) as H.
  destruct (UI.do_call c s) as [l s1]. cbn [fst snd] in *.
  inversion H; subst; cbn [UI.m_widget]; try discriminate Hc;
    (split; [congruence|]);
    repeat (apply List.Forall_cons; [first [assumption | exact I]|]);
    apply List.Forall_nil.
Qed.

Lemma quiet_log (dead : list UI.ptr) (cur : option UI.ptr)
  (l rest : list UI.effect) :
  Forall (fun e => match e with
                   | UI.Grab w | UI.Forward _ w _ | UI.SetFixedSize w _ _ =>
                       cur = Some w
                   | UI.Delete _ | UI.Emit_widgetChanged => False
                   | _ => True
                   end) l ->
  (forall w, cur = Some w -> w ∉ dead) ->
  UI.no_use_after_delete dead (l ++ rest)
  = UI.no_use_after_delete dead rest /\
  UI.deleted l = [].
Proof.
  intros Hl Hcur.
  induction Hl as [|e l He Hl [IH1 IH2]]; [split; reflexivity|].
  destruct e; simpl; try (split; assumption); try contradiction;
    rewrite bool_decide_eq_true_2 by (apply Hcur, He); split; assumption.
Qed.

Lemma setWidget_call (w : UI.ptr) (s : UI.DeclarativeWidget) :
  UI.do_call (UI.Call_setWidget (Some w)) s =
  ((match UI.m_widget s with
    | Some old => [UI.Delete old]
    | None => []
    end ++ [UI.Emit_widgetChanged; UI.Grab w;
            UI.ItemUpdate UI.QRect_default])%list,
   {| UI.m_widget := Some w; UI.m_pixmap := UI.QPixmap_grab w;
      UI.width := UI.width s; UI.height := UI.height s |}).
Proof. destruct s as [[old|] pm x y]; reflexivity. Qed.

Lemma elem_of_removelast (k : list UI.ptr) (z : UI.ptr) :
  z ∈ removelast k -> z ∈ k.
Proof.
  induction k as [|y [|y' k] IHk]; simpl; intros Hz.
  - exact Hz.
  - inversion Hz.
  - apply elem_of_cons in Hz as [->|Hz]; [left | right; apply IHk, Hz].
Qed.

Lemma NoDup_removelast (k : list UI.ptr) : NoDup k -> NoDup (removelast k).
Proof.
  induction k as [|a [|b l] IH]; simpl; intros Hnd.
  - apply NoDup_nil_2.
  - apply NoDup_nil_2.
  - apply NoDup_cons in Hnd as [Ha Hnd]. apply NoDup_cons. split.
    + intros Hin. apply Ha, elem_of_removelast, Hin.
    + apply IH. exact Hnd.
Qed.

(** The widgets in [dead] were deleted before, the item [s] holds its
    widget, and those of [cs] are still to be handed over. *)
Lemma run_ownership (cs : list UI.call) :
  forall (s : UI.DeclarativeWidget) (dead : list UI.ptr),
    NoDup (dead ++ option_list (UI.m_widget s) ++ UI.passed cs) ->
    UI.m_widget (snd (UI.run cs s))
    = last (option_list (UI.m_widget s) ++ UI.passed cs) /\
    UI.deleted (fst (UI.run cs s))
    = removelast (option_list (UI.m_widget s) ++ UI.passed cs) /\
    UI.no_use_after_delete dead (fst (UI.run cs s)) = true.
Proof.
  induction cs as [|c cs IH]; intros s dead Hnd.
  - simpl. rewrite app_nil_r. destruct (UI.m_widget s); repeat split.
  - rewrite run_cons. cbn [fst snd]. rewrite deleted_app.
    rewrite passed_cons in *.
    destruct (UI.passed [c]) as [|w ws] eqn:Hc.
    + destruct (quiet_call c s Hc) as [Hw Hl].
      destruct (quiet_log dead (UI.m_widget s) _
                  (fst (UI.run cs (snd (UI.do_call c s)))) Hl) as [Hs Hd].
      { intros w Hcur. rewrite Hcur in Hnd. simpl in Hnd.
        apply NoDup_app in Hnd as (_ & Hnd & _).
        intros Hin. apply (Hnd w Hin). left. }
      rewrite Hs, Hd. simpl app. rewrite <- Hw.
      apply IH. rewrite Hw. exact Hnd.
    + destruct c as [[w'|]|rect|p|f event| |x|y]; try discriminate Hc.
      injection Hc as <- <-. rewrite setWidget_call. cbn [fst snd].
      destruct (UI.m_widget s) as [old|]; simpl in Hnd |- *.
      * apply NoDup_app in Hnd as (Hd & Hdis & Hnd).
        apply NoDup_cons in Hnd as (Hold & Hnd).
        destruct (IH {| UI.m_widget := Some w';
                        UI.m_pixmap := UI.QPixmap_grab w';
                        UI.width := UI.width s; UI.height := UI.height s |}
                    (old :: dead)) as (H1 & H2 & H3).
        { simpl. apply NoDup_cons. split.
          - intros Hin. apply elem_of_app in Hin as [Hin|Hin].
            + apply (Hdis old Hin). left.
            + exact (Hold Hin).
          - apply NoDup_app. split; [exact Hd|]. split; [|exact Hnd].
            intros z Hz. apply (Hdis z) in Hz. intros Hin. apply Hz.
            right. exact Hin. }
        simpl in H1, H2. rewrite H1, H2, H3.
        rewrite !bool_decide_eq_true_2; [repeat split| |].
        -- intros Hin. apply elem_of_cons in Hin as [->|Hin].
           ++ apply Hold. left.
           ++ apply (Hdis w' Hin). right. left.
        -- intros Hin. apply (Hdis old Hin). left.
      * destruct (IH {| UI.m_widget := Some w';
                        UI.m_pixmap := UI.QPixmap_grab w';
                        UI.width := UI.width s; UI.height := UI.height s |}
                    dead Hnd) as (H1 & H2 & H3).
        simpl in H1, H2. rewrite H1, H2, H3.
        rewrite bool_decide_eq_true_2; [repeat split|].
        apply NoDup_app in Hnd as (_ & Hdis & _).
        intros Hin. apply (Hdis w' Hin). left.
Qed.

(** X11: the item owns its widgets.  When every widget handed to
    [setWidget] is handed over once, then after construction and any
    sequence of calls the item holds the widget handed over last, every
    widget handed over before it has been deleted, once and in order,
    and no widget is grabbed, resized, sent an event or deleted after
    its deletion. *)
Theorem widgets_owned (cs : list UI.call) :
  NoDup (UI.passed cs) ->
  UI.m_widget (snd (UI.run cs UI.DeclarativeWidget_DeclarativeWidget))
  = last (UI.passed cs) /\
  UI.deleted (fst (UI.run cs UI.DeclarativeWidget_DeclarativeWidget))
  = removelast (UI.passed cs) /\
  NoDup (UI.deleted (fst (UI.run cs UI.DeclarativeWidget_DeclarativeWidget)))
  /\
  UI.no_use_after_delete []
    (fst (UI.run cs UI.DeclarativeWidget_DeclarativeWidget)) = true.
Proof.
  intros Hnd.
  destruct (run_ownership cs UI.DeclarativeWidget_DeclarativeWidget [] Hnd)
    as (H1 & H2 & H3).
  simpl in H1, H2. rewrite H1, H2, H3. repeat split.
  apply NoDup_removelast, Hnd.
Qed.

Lemma widgets_owned_two :
  UI.m_widget
    (snd (UI.run [UI.Call_setWidget (Some 1%positive);
                  UI.Call_event UI.QWidget_keyPressEvent (Some 7%positive);
                  UI.Call_setWidget None;
                  UI.Call_setWidget (Some 2%positive);
                  UI.Call_widthChanged (double_of_Z 640);
                  UI.Call_heightChanged (double_of_Z 480)]
            UI.DeclarativeWidget_DeclarativeWidget))
  = Some 2%positive /\
  UI.deleted
    (fst (UI.run [UI.Call_setWidget (Some 1%positive);
                  UI.Call_event UI.QWidget_keyPressEvent (Some 7%positive);
                  UI.Call_setWidget None;
                  UI.Call_setWidget (Some 2%positive);
                  UI.Call_widthChanged (double_of_Z 640);
                  UI.Call_heightChanged (double_of_Z 480)]
            UI.DeclarativeWidget_DeclarativeWidget))
  = [1%positive].
Proof.
  pose proof (widgets_owned
                [UI.Call_setWidget (Some 1%positive);
                 UI.Call_event UI.QWidget_keyPressEvent (Some 7%positive);
                 UI.Call_setWidget None;
                 UI.Call_setWidget (Some 2%positive);
                 UI.Call_widthChanged (double_of_Z 640);
                 UI.Call_heightChanged (double_of_Z 480)]) as H.
  destruct H as (H1 & H2 & _).
  - apply (bool_decide_unpack _). reflexivity.
  - split; [exact H1 | exact H2].
Defined.

Lemma run_app (cs1 cs2 : list UI.call) (s : UI.DeclarativeWidget) :
  UI.run (cs1 ++ cs2) s =
  ((fst (UI.run cs1 s) ++ fst (UI.run cs2 (snd (UI.run cs1 s))))%list,
   snd (UI.run cs2 (snd (UI.run cs1 s)))).
Proof.
  revert s. induction cs1 as [|c cs1 IH]; intros s.
  - simpl. destruct (UI.run cs2 s). reflexivity.
  - change ((c :: cs1) ++ cs2)%list with (c :: (cs1 ++ cs2))%list.
    rewrite !run_cons, IH. cbn [fst snd]. rewrite app_assoc. reflexivity.
Qed.

Lemma no_use_after_delete_app_r (l1 l2 : list UI.effect) :
  forall dead : list UI.ptr,
    UI.no_use_after_delete dead (l1 ++ l2) = true ->
    exists dead' : list UI.ptr, UI.no_use_after_delete dead' l2 = true.
Proof.
  induction l1 as [|e l1 IH]; intros dead H.
  - exists dead. exact H.
  - destruct e; simpl in H;
      try (apply andb_true_iff in H as [_ H]); apply (IH _ H).
Qed.

(** X12: the item must not be handed the widget it holds.  After any
    sequence of calls that leaves the item holding a widget, a
    [setWidget] with that same widget deletes it and then grabs it, and
    the item ends up holding a deleted widget. *)
Theorem setWidget_same_widget (cs : list UI.call) (s : UI.DeclarativeWidget)
  (dead : list UI.ptr) (w : UI.ptr) :
  UI.m_widget (snd (UI.run cs s)) = Some w ->
  UI.no_use_after_delete dead
    (fst (UI.run (cs ++ [UI.Call_setWidget (Some w)]) s)) = false /\
  UI.m_widget (snd (UI.run (cs ++ [UI.Call_setWidget (Some w)]) s))
  = Some w /\
  w ∈ UI.deleted (fst (UI.run (cs ++ [UI.Call_setWidget (Some w)]) s)) /\
  fst (UI.setWidget (Some w) (snd (UI.run cs s)))
  = [UI.Delete w; UI.Emit_widgetChanged; UI.Grab w;
     UI.ItemUpdate UI.QRect_default].
Proof.
  intros Hw. rewrite run_app. cbn [fst snd].
  rewrite run_cons, setWidget_call, Hw. cbn [fst snd UI.run UI.skip].
  change (UI.setWidget (Some w) (snd (UI.run cs s)))
    with (UI.do_call (UI.Call_setWidget (Some w)) (snd (UI.run cs s))).
  rewrite setWidget_call, Hw. simpl.
  split; [|split; [reflexivity|split; [|reflexivity]]].
  - apply not_true_is_false. intros H.
    apply no_use_after_delete_app_r in H as [dead' H]. simpl in H.
    apply andb_true_iff in H as [_ H].
    apply andb_true_iff in H as [H _].
    apply bool_decide_eq_true_1 in H. apply H. left.
  - rewrite deleted_app. apply elem_of_app. right. left.
Qed.

Lemma setWidget_same_widget_twice :
  UI.no_use_after_delete []
    (fst (UI.run ([UI.Call_setWidget (Some 1%positive)]
                  ++ [UI.Call_setWidget (Some 1%positive)])
            UI.DeclarativeWidget_DeclarativeWidget)) = false /\
  fst (UI.run ([UI.Call_setWidget (Some 1%positive)]
               ++ [UI.Call_setWidget (Some 1%positive)])
         UI.DeclarativeWidget_DeclarativeWidget)
  = [UI.Emit_widgetChanged; UI.Grab 1%positive;
     UI.ItemUpdate UI.QRect_default;
     UI.Delete 1%positive; UI.Emit_widgetChanged; UI.Grab 1%positive;
     UI.ItemUpdate UI.QRect_default].
Proof.
  split; [|reflexivity].
  apply (setWidget_same_widget [UI.Call_setWidget (Some 1%positive)]
           UI.DeclarativeWidget_DeclarativeWidget [] 1%positive).
  reflexivity.
Defined.

(** X13: without a widget the item is inert.  As long as no widget has
    been handed to [setWidget], the item holds none and keeps the null
    pixmap, and its only effect is [paint] drawing that null pixmap at
    the origin: no event is sent on, nothing is grabbed, resized or
    deleted, no repaint is requested and no signal is emitted. *)
Theorem inert_without_widget (cs : list UI.call) :
  UI.passed cs = [] ->
  UI.m_widget (snd (UI.run cs UI.DeclarativeWidget_DeclarativeWidget)) = None /\
  UI.m_pixmap (snd (UI.run cs UI.DeclarativeWidget_DeclarativeWidget))
  = UI.QPixmap_null /\
  Forall (fun e => exists p, e = UI.DrawPixmap p 0 0 UI.QPixmap_null)
    (fst (UI.run cs UI.DeclarativeWidget_DeclarativeWidget)).
Proof.
  assert (G : forall s, UI.m_widget s = None ->
                        UI.m_pixmap s = UI.QPixmap_null ->
                        UI.passed cs = [] ->
                        UI.m_widget (snd (UI.run cs s)) = None /\
                        UI.m_pixmap (snd (UI.run cs s)) = UI.QPixmap_null /\
                        Forall (fun e => exists p,
                                    e = UI.DrawPixmap p 0 0 UI.QPixmap_null)
                          (fst (UI.run cs s))).
  { induction cs as [|c cs IH]; intros s Hw Hp Hcs.
    - simpl. repeat split; [exact Hw | exact Hp | apply List.Forall_nil].
    - rewrite passed_cons in Hcs. apply app_eq_nil in Hcs as [Hc Hcs].
      rewrite run_cons. cbn [fst snd].
      pose proof (do_call_shape c s) as H.
      destruct (UI.do_call c s) as [l s1]. cbn [fst snd] in *.
      inversion H; subst; try congruence; try discriminate Hc.
      + apply IH; [exact Hw | exact Hp | exact Hcs].
      + destruct (IH s1 Hw Hp Hcs) as (H1 & H2 & H3).
        repeat split; [exact H1 | exact H2 |].
        apply List.Forall_cons; [|exact H3].
        exists p. rewrite Hp. reflexivity. }
  intros Hcs. apply G; [reflexivity | reflexivity | exact Hcs].
Qed.

Lemma inert_without_widget_events :
  fst (UI.run [UI.Call_event UI.QWidget_mousePressEvent (Some 3%positive);
               UI.Call_widthChanged (double_of_Z 800);
               UI.Call_paint (Some 9%positive);
               UI.Call_setWidget None;
               UI.Call_update UI.QRect_default]
         UI.DeclarativeWidget_DeclarativeWidget)
  = [UI.DrawPixmap 9%positive 0 0 UI.QPixmap_null] /\
  UI.m_widget
    (snd (UI.run [UI.Call_event UI.QWidget_mousePressEvent (Some 3%positive);
                  UI.Call_widthChanged (double_of_Z 800);
                  UI.Call_paint (Some 9%positive);
                  UI.Call_setWidget None;
                  UI.Call_update UI.QRect_default]
            UI.DeclarativeWidget_DeclarativeWidget)) = None.
Proof.
  split; [reflexivity|].
  apply (inert_without_widget
           [UI.Call_event UI.QWidget_mousePressEvent (Some 3%positive);
            UI.Call_widthChanged (double_of_Z 800);
            UI.Call_paint (Some 9%positive);
            UI.Call_setWidget None;
            UI.Call_update UI.QRect_default]).
  reflexivity.
Defined.

(** ** The extent handed to the widget *)







(** ** Key and alias in [read] *)

(** C5: [read] looks every field up under its primary key first and
    under its alias only when the primary key is absent.  After a
    successful [read], each field of the schema holds the coerced value
    of its primary key when the object has that key, whatever the alias
    holds; the coerced value of its alias when the primary key is
    absent and the alias present; and the default of its type when both
    are absent.  The test of [read] follows the same order: a non-empty
    string title and value, each found under the primary key or, that
    key being absent, under the alias, make [read] succeed with exactly
    that title and value.  Reading [{"t": "Speed", "v": "10", "g": true}]
    succeeds with [graph()] true, [title()] "Speed" and [value()]
    "10". *)
Theorem alias_fallback :
  (forall (o : QJsonObject) (d : JSON.Dataset) (f : field) (v : QJsonValue),
     fst (JSON.read o d) = true -> In f schema ->
     (o !! primary f = Some v ->
      stored (snd (JSON.read o d)) (primary f) = Some (coerce (type f) v)) /\
     (o !! primary f = None ->
      forall a : QString, alias f = Some a -> o !! a = Some v ->
      stored (snd (JSON.read o d)) (primary f) = Some (coerce (type f) v)) /\
     (o !! primary f = None ->
      (forall a : QString, alias f = Some a -> o !! a = None) ->
      stored (snd (JSON.read o d)) (primary f) = Some (default (type f)))) /\
  (forall (o : QJsonObject) (d : JSON.Dataset) (st sv : QString),
     o !! "title" = Some (String_ st) \/
     o !! "title" = None /\ o !! "t" = Some (String_ st) ->
     o !! "value" = Some (String_ sv) \/
     o !! "value" = None /\ o !! "v" = Some (String_ sv) ->
     st <> "" -> sv <> "" ->
     fst (JSON.read o d) = true /\
     JSON.title (snd (JSON.read o d)) = st /\
     JSON.value (snd (JSON.read o d)) = sv) /\
  (forall d : JSON.Dataset,
     fst (JSON.read Samples.speed d) = true /\
     JSON.graph (snd (JSON.read Samples.speed d)) = true /\
     JSON.title (snd (JSON.read Samples.speed d)) = "Speed" /\
     JSON.value (snd (JSON.read Samples.speed d)) = "10").
Proof.
  split; [|split].
  - intros o d f v Hb Hf.
    destruct (read_result_cases o d) as [E|E]; rewrite E in *;
      [|discriminate Hb].
    cbn [snd]. rewrite (stored_assigned o d f Hf).
    unfold extracted, lookup_with_fallback.
    split; [|split].
    + intros ->. reflexivity.
    + intros -> a -> ->. reflexivity.
    + intros -> Ha. destruct (alias f) as [a|]; [|reflexivity].
      rewrite (Ha a eq_refl). reflexivity.
  - intros o d st sv Ht Hv Hst Hsv.
    assert (Et : extracted_title o = st).
    { unfold extracted_title. rewrite JFI_Value_alias_lookup.
      destruct Ht as [-> | [-> ->]]; reflexivity. }
    assert (Ev : extracted_value o = sv).
    { unfold extracted_value. rewrite JFI_Value_alias_lookup.
      destruct Hv as [-> | [-> ->]]; reflexivity. }
    rewrite (read_success o d) by (rewrite ?Et, ?Ev; assumption).
    repeat split; assumption.
  - intros d. rewrite (read_valid Samples.speed d); repeat split.
Qed.

Lemma alias_fallback_both :
  JSON.title
    (snd (JSON.read (<["title" := String_ "Primary"]>
                       (<["value" := String_ "1"]> Samples.speed))
            JSON.Dataset_Dataset)) = "Primary" /\
  JSON.value
    (snd (JSON.read (<["title" := String_ "Primary"]>
                       (<["value" := String_ "1"]> Samples.speed))
            JSON.Dataset_Dataset)) = "1" /\
  stored (snd (JSON.read (<["title" := String_ "Primary"]>
                            (<["value" := String_ "1"]> Samples.speed))
                 JSON.Dataset_Dataset)) "graph"
  = Some (SBool true) /\
  stored (snd (JSON.read (<["title" := String_ "Primary"]>
                            (<["value" := String_ "1"]> Samples.speed))
                 JSON.Dataset_Dataset)) "units"
  = Some (SString "").
Proof.
  pose proof alias_fallback as (H1 & H2 & _).
  destruct (H2 (<["title" := String_ "Primary"]>
                  (<["value" := String_ "1"]> Samples.speed))
               JSON.Dataset_Dataset "Primary" "1") as (Hb & Ht & Hv).
  { left. reflexivity. }
  { left. reflexivity. }
  { discriminate. }
  { discriminate. }
  split; [exact Ht|]. split; [exact Hv|]. split.
  - assert (Hin : In {| primary := "graph"; alias := Some "g";
                        type := TBool |} schema).
    { unfold schema. simpl. tauto. }
    destruct (H1 _ JSON.Dataset_Dataset _ (Bool true) Hb Hin)
      as (_ & P2 & _).
    apply (P2 ltac:(reflexivity) "g"); reflexivity.
  - assert (Hin : In {| primary := "units"; alias := Some "u";
                        type := TString |} schema).
    { unfold schema. simpl. tauto. }
    destruct (H1 _ JSON.Dataset_Dataset _ Null Hb Hin) as (_ & _ & P3).
    apply P3; [reflexivity|]. intros a [= <-]. reflexivity.
Defined.
